(** * Project 0: knowledge store and proof tree

    A shallow embedding of [project_0_framework.py]: the deduplicating
    [KnowledgeBase], the [KnowledgeEntry] fingerprint, and the [ProofNode]
    tree with its recursive strength score. *)

From Stdlib Require Import ZArith NArith List Bool Lia String Ascii Permutation.
From Stdlib Require Import Floats.SpecFloat.
Import ListNotations.

Set Warnings "-register-all".
Local Open Scope Z_scope.

(** ** Python floats

    A Python [float] is an IEEE 754 binary64 number.  The arithmetic is the
    Standard Library's executable specification [SpecFloat] at precision 53
    and maximal exponent 1024. *)
Module Float64.

Definition prec : Z := 53.
Definition emax : Z := 1024.

Definition float := spec_float.

Definition fadd : float -> float -> float := SFadd prec emax.
Definition fmul : float -> float -> float := SFmul prec emax.
Definition fdiv : float -> float -> float := SFdiv prec emax.
Definition fleb : float -> float -> bool := SFleb.
Definition feqb : float -> float -> bool := SFeqb.

(** The float nearest to the integer [n]. *)
Definition of_Z (n : Z) : float := binary_normalize prec emax n 0 false.

(** The float nearest to the decimal [n / 10^k], as a literal is read. *)
Definition of_decimal (n : Z) (k : Z) : float :=
  fdiv (of_Z n) (of_Z (10 ^ k)).

(** The literals of the source, by mantissa and exponent. *)
Definition f0_0 : float := S754_zero false.
Definition f1_0 : float := S754_finite false 4503599627370496 (-52).
Definition f0_5 : float := S754_finite false 4503599627370496 (-53).
Definition f0_8 : float := S754_finite false 7205759403792794 (-53).
Definition f0_6 : float := S754_finite false 5404319552844595 (-53).
Definition f0_4 : float := S754_finite false 7205759403792794 (-54).
Definition f0_2 : float := S754_finite false 7205759403792794 (-55).
Definition f0_1 : float := S754_finite false 7205759403792794 (-56).

(** [n / d] rounded to the nearest integer, ties to the even one
    ([0 <= n], [0 < d]). *)
Definition round_half_even (n d : Z) : Z :=
  let q := n / d in
  match (2 * (n mod d)) ?= d with
  | Lt => q
  | Gt => q + 1
  | Eq => if Z.even q then q else q + 1
  end.

(** [scaled_round k m e] is the exact value [m * 2^e] times [10^k],
    rounded half-even to an integer. *)
Definition scaled_round (k : Z) (m : positive) (e : Z) : Z :=
  if 0 <=? e
  then Zpos m * 2 ^ e * 10 ^ k
  else round_half_even (Zpos m * 10 ^ k) (2 ^ (- e)).

(** The built-in [round(x, k)] on a float, for [0 <= k] small (the source
    uses [k = 3]): CPython rounds the exact value of [x] to [k] decimal
    places, ties to even, and reads the decimal back as the nearest float;
    zeros, infinities and NaN are returned as they are. *)
Definition py_round (x : float) (k : Z) : float :=
  match x with
  | S754_finite s m e =>
      match scaled_round k m e with
      | Zpos n =>
          SFdiv prec emax (S754_finite s n 0)
                (S754_finite false (Z.to_pos (10 ^ k)) 0)
      | _ => S754_zero s
      end
  | _ => x
  end.

(** The built-in [sum] over floats: it starts from the integer [0] and
    adds the items from left to right (CPython's accumulation loop up to
    3.11); [0 + x] converts the [0] to [0.0].  Of no items the sum is the
    integer [0], which the source multiplies by [0.5] at once: that product
    is [0.0], as it is here. *)
Definition py_sum (l : list float) : float := fold_left fadd l f0_0.

End Float64.

(** ** Python strings and exceptions *)

(** The one exception the modelled code can raise. *)
Inductive exn : Type :=
| UnicodeEncodeError.

Inductive Result (A : Type) : Type :=
| Ok (a : A)
| Raise (e : exn).
Arguments Ok {A} a.
Arguments Raise {A} e.

Module PyStr.

(** A [str] is a sequence of Unicode code points, each below [0x110000];
    the surrogates [0xD800 .. 0xDFFF] are code points too. *)
Definition str : Type := list N.

Definition is_code_point (c : N) : bool := (c <? 0x110000)%N.
Definition is_surrogate (c : N) : bool :=
  ((0xD800 <=? c) && (c <=? 0xDFFF))%N.
(** A code point that UTF-8 can encode. *)
Definition is_scalar (c : N) : bool :=
  is_code_point c && negb (is_surrogate c).

(** A literal of the source (ASCII only). *)
Definition lit (s : string) : str :=
  map N_of_ascii (list_ascii_of_string s).

Fixpoint eqb (a b : str) : bool :=
  match a, b with
  | [], [] => true
  | x :: a', y :: b' => N.eqb x y && eqb a' b'
  | _, _ => false
  end.

Definition byte_of_N (n : N) : Byte.byte :=
  match Byte.of_N n with
  | Some b => b
  | None => Byte.x00
  end.

(** The UTF-8 bytes of one code point; a surrogate is refused. *)
Definition encode_code_point (c : N) : Result (list Byte.byte) :=
  (if c <? 0x80 then Ok [byte_of_N c]
   else if c <? 0x800 then
     Ok [byte_of_N (N.lor 0xC0 (N.shiftr c 6));
         byte_of_N (N.lor 0x80 (N.land c 0x3F))]
   else if c <? 0x10000 then
     if is_surrogate c then Raise UnicodeEncodeError
     else
       Ok [byte_of_N (N.lor 0xE0 (N.shiftr c 12));
           byte_of_N (N.lor 0x80 (N.land (N.shiftr c 6) 0x3F));
           byte_of_N (N.lor 0x80 (N.land c 0x3F))]
   else if c <? 0x110000 then
     Ok [byte_of_N (N.lor 0xF0 (N.shiftr c 18));
         byte_of_N (N.lor 0x80 (N.land (N.shiftr c 12) 0x3F));
         byte_of_N (N.lor 0x80 (N.land (N.shiftr c 6) 0x3F));
         byte_of_N (N.lor 0x80 (N.land c 0x3F))]
   else Raise UnicodeEncodeError)%N.

(** [s.encode()]: strict UTF-8. *)
Fixpoint encode (s : str) : Result (list Byte.byte) :=
  match s with
  | [] => Ok []
  | c :: s' =>
      match encode_code_point c with
      | Raise e => Raise e
      | Ok bs =>
          match encode s' with
          | Raise e => Raise e
          | Ok rest => Ok (bs ++ rest)
          end
      end
  end.

End PyStr.

(** ** [hashlib.sha256]

    SHA-256 (FIPS 180-4) on a byte string, with 32-bit words as [N]. *)
Module SHA256.

Local Open Scope N_scope.

Definition w32 (x : N) : N := N.land x 0xFFFFFFFF.
Definition add32 (a b : N) : N := w32 (a + b).
Definition rotr (n x : N) : N :=
  N.lor (N.shiftr x n) (w32 (N.shiftl x (32 - n))).
Definition not32 (x : N) : N := N.lxor x 0xFFFFFFFF.

Definition Ch (x y z : N) : N :=
  N.lxor (N.land x y) (N.land (not32 x) z).
Definition Maj (x y z : N) : N :=
  N.lxor (N.lxor (N.land x y) (N.land x z)) (N.land y z).
Definition Sigma0 (x : N) : N :=
  N.lxor (N.lxor (rotr 2 x) (rotr 13 x)) (rotr 22 x).
Definition Sigma1 (x : N) : N :=
  N.lxor (N.lxor (rotr 6 x) (rotr 11 x)) (rotr 25 x).
Definition sigma0 (x : N) : N :=
  N.lxor (N.lxor (rotr 7 x) (rotr 18 x)) (N.shiftr x 3).
Definition sigma1 (x : N) : N :=
  N.lxor (N.lxor (rotr 17 x) (rotr 19 x)) (N.shiftr x 10).

(** The first 64 primes, by trial division. *)
Definition is_prime (p : N) : bool :=
  forallb (fun d => negb (p mod d =? 0)) (map N.of_nat (seq 2 (N.to_nat p - 2))).

Definition primes : list N :=
  Eval vm_compute in filter is_prime (map N.of_nat (seq 2 310)).

(** The integer part of the cube root, built bit by bit from bit 43 down. *)
Definition icbrt (n : N) : N :=
  fold_left (fun r b => let c := r + 2 ^ b in if c * c * c <=? n then c else r)
            (rev (map N.of_nat (seq 0 44))) 0.

(** The round constants: the first 32 bits of the fractional parts of the
    cube roots of the first 64 primes. *)
Definition K : list N :=
  Eval vm_compute in map (fun p => w32 (icbrt (p * 2 ^ 96))) primes.

(** The eight working words. *)
Record state : Type := mkState {
  ha : N; hb : N; hc : N; hd : N; he : N; hf : N; hg : N; hh : N
}.

(** The initial hash value: the first 32 bits of the fractional parts of
    the square roots of the first 8 primes. *)
Definition frac_sqrt (p : N) : N := w32 (N.sqrt (p * 2 ^ 64)).

Definition H0 : state :=
  Eval vm_compute in
    mkState (frac_sqrt 2) (frac_sqrt 3) (frac_sqrt 5) (frac_sqrt 7)
            (frac_sqrt 11) (frac_sqrt 13) (frac_sqrt 17) (frac_sqrt 19).

(** Padding: the bit [1], zeros up to 56 modulo 64 bytes, then the
    message length in bits as 8 big-endian bytes. *)
Definition be_bytes (count : nat) (x : N) : list N :=
  map (fun i => N.land (N.shiftr x (8 * N.of_nat i)) 0xFF)
      (rev (seq 0 count)).

Definition pad (msg : list N) : list N :=
  let len := N.of_nat (List.length msg) in
  let zeros := N.to_nat ((119 - len mod 64) mod 64) in
  msg ++ [0x80] ++ repeat 0 zeros ++ be_bytes 8 (8 * len).

Fixpoint words (fuel : nat) (bs : list N) : list N :=
  match fuel, bs with
  | S fuel', b0 :: b1 :: b2 :: b3 :: rest =>
      (N.shiftl b0 24 + N.shiftl b1 16 + N.shiftl b2 8 + b3)
        :: words fuel' rest
  | _, _ => []
  end.

(** The message schedule: 16 words of the block, extended to 64. *)
Fixpoint extend (steps : nat) (w : list N) : list N :=
  match steps with
  | O => w
  | S steps' =>
      let t := List.length w in
      let at_ (back : nat) := nth (t - back) w 0 in
      extend steps'
        (w ++ [add32 (add32 (sigma1 (at_ 2%nat)) (at_ 7%nat))
                     (add32 (sigma0 (at_ 15%nat)) (at_ 16%nat))])
  end.

Definition round (s : state) (kw : N * N) : state :=
  let '(k, w) := kw in
  let t1 := add32 (add32 (add32 (hh s) (Sigma1 (he s)))
                         (add32 (Ch (he s) (hf s) (hg s)) k)) w in
  let t2 := add32 (Sigma0 (ha s)) (Maj (ha s) (hb s) (hc s)) in
  mkState (add32 t1 t2) (ha s) (hb s) (hc s)
          (add32 (hd s) t1) (he s) (hf s) (hg s).

Definition compress (h : state) (block : list N) : state :=
  let s := fold_left round (combine K (extend 48 block)) h in
  mkState (add32 (ha h) (ha s)) (add32 (hb h) (hb s))
          (add32 (hc h) (hc s)) (add32 (hd h) (hd s))
          (add32 (he h) (he s)) (add32 (hf h) (hf s))
          (add32 (hg h) (hg s)) (add32 (hh h) (hh s)).

Fixpoint blocks (fuel : nat) (ws : list N) (h : state) : state :=
  match fuel, ws with
  | S fuel', _ :: _ => blocks fuel' (skipn 16 ws) (compress h (firstn 16 ws))
  | _, _ => h
  end.

(** [hashlib.sha256(data).digest()]: 32 bytes. *)
Definition digest (data : list Byte.byte) : list Byte.byte :=
  let bs := pad (map Byte.to_N data) in
  let ws := words (List.length bs) bs in
  let h := blocks (List.length ws) ws H0 in
  map PyStr.byte_of_N
      (flat_map (be_bytes 4)
         [ha h; hb h; hc h; hd h; he h; hf h; hg h; hh h]).

Definition hex_digit (n : N) : N :=
  if n <? 10 then 48 + n else 87 + n.

(** [hashlib.sha256(data).hexdigest()]: two lowercase hexadecimal digits
    per byte of the digest. *)
Definition hexdigest (data : list Byte.byte) : PyStr.str :=
  flat_map (fun b => let n := Byte.to_N b in
                     [hex_digit (N.shiftr n 4); hex_digit (N.land n 0xF)])
           (digest data).

End SHA256.

(** ** Python dictionaries and plain values *)

(** A [dict] with [str] keys keeps its items in insertion order: an
    association list without repeated keys. *)
Module PyDict.
Section Dict.
Context {V : Type}.

Definition dict : Type := list (PyStr.str * V).

(** [k in d] *)
Fixpoint contains (d : dict) (k : PyStr.str) : bool :=
  match d with
  | [] => false
  | (k', _) :: d' => PyStr.eqb k' k || contains d' k
  end.

(** [d.get(k)] *)
Fixpoint get (d : dict) (k : PyStr.str) : option V :=
  match d with
  | [] => None
  | (k', v) :: d' => if PyStr.eqb k' k then Some v else get d' k
  end.

(** [d.get(k, default)] *)
Definition get_default (d : dict) (k : PyStr.str) (default : V) : V :=
  match get d k with
  | Some v => v
  | None => default
  end.

(** [d[k] = v]: a present key keeps its place, a new one goes last. *)
Fixpoint set (d : dict) (k : PyStr.str) (v : V) : dict :=
  match d with
  | [] => [(k, v)]
  | (k', v') :: d' =>
      if PyStr.eqb k' k then (k', v) :: d' else (k', v') :: set d' k v
  end.

Definition keys (d : dict) : list PyStr.str := map fst d.
(** [d.values()] *)
Definition values (d : dict) : list V := map snd d.
End Dict.
Arguments dict V : clear implicits.
End PyDict.

(** What [to_dict] returns: strings, floats, lists and nested mappings. *)
Inductive value : Type :=
| VStr (s : PyStr.str)
| VFloat (f : Float64.float)
| VList (l : list value)
| VDict (d : list (PyStr.str * value)).

(** [x in l] on a list of strings. *)
Fixpoint list_contains (l : list PyStr.str) (x : PyStr.str) : bool :=
  match l with
  | [] => false
  | y :: l' => PyStr.eqb y x || list_contains l' x
  end.

Notation "'$' s" := (PyStr.lit s) (at level 1, format "'$' s").

(** ** [class KnowledgeEntry] *)
Module KnowledgeEntry.

Record t : Type := mk {
  id : PyStr.str;
  timestamp : PyStr.str;
  content : PyStr.str;
  source : PyStr.str;
  tags : list PyStr.str;
  fingerprint : PyStr.str
}.

(** [hashlib.sha256((content + source).encode()).hexdigest()] *)
Definition fingerprint_of (content source : PyStr.str) : Result PyStr.str :=
  match PyStr.encode (content ++ source) with
  | Ok data => Ok (SHA256.hexdigest data)
  | Raise e => Raise e
  end.

Definition compute_fingerprint (self : t) : Result PyStr.str :=
  fingerprint_of (content self) (source self).

(** [__init__]: [uuid] and [now] are what [uuid.uuid4()] and
    [datetime.utcnow().isoformat()] give at the call; the fingerprint is
    computed from the attributes just set, and an exception of
    [compute_fingerprint] leaves no entry. *)
Definition init (uuid now : PyStr.str)
           (content source : PyStr.str) (tags : list PyStr.str) : Result t :=
  let self := mk uuid now content source tags [] in
  match compute_fingerprint self with
  | Ok fp => Ok (mk uuid now content source tags fp)
  | Raise e => Raise e
  end.

Definition to_dict (self : t) : value :=
  VDict [($"id", VStr (id self));
         ($"timestamp", VStr (timestamp self));
         ($"content", VStr (content self));
         ($"source", VStr (source self));
         ($"tags", VList (map VStr (tags self)));
         ($"fingerprint", VStr (fingerprint self))].

End KnowledgeEntry.

(** ** [class ProofNode] *)
Module ProofNode.
Import Float64.

Inductive t : Type :=
| mk (id claim source proof_type : PyStr.str)
     (children : list t) (created : PyStr.str).

Definition id (n : t) := let '(mk x _ _ _ _ _) := n in x.
Definition claim (n : t) := let '(mk _ x _ _ _ _) := n in x.
Definition source (n : t) := let '(mk _ _ x _ _ _) := n in x.
Definition proof_type (n : t) := let '(mk _ _ _ x _ _) := n in x.
Definition children (n : t) := let '(mk _ _ _ _ x _) := n in x.
Definition created (n : t) := let '(mk _ _ _ _ _ x) := n in x.

(** [__init__]: no children yet. *)
Definition init (uuid now : PyStr.str) (claim source proof_type : PyStr.str)
  : t :=
  mk uuid claim source proof_type [] now.

(** [self.children.append(node)] *)
Definition add_child (self node : t) : t :=
  let '(mk i c s p ch cr) := self in mk i c s p (ch ++ [node]) cr.

Definition weight_map : PyDict.dict float :=
  [($"experiment", f1_0);
   ($"observation", f0_8);
   ($"text", f0_6);
   ($"tradition", f0_4);
   ($"opinion", f0_2)].

Fixpoint evaluate_strength (self : t) : float :=
  let '(mk _ _ _ proof_type children _) := self in
  let base := f1_0 in
  let base := fmul base (PyDict.get_default weight_map proof_type f0_1) in
  let base := fadd base (fmul (py_sum (map evaluate_strength children)) f0_5) in
  py_round base 3.

Fixpoint to_dict (self : t) : value :=
  let '(mk id claim source proof_type children created) := self in
  VDict [($"id", VStr id);
         ($"claim", VStr claim);
         ($"source", VStr source);
         ($"proof_type", VStr proof_type);
         ($"created", VStr created);
         ($"strength", VFloat (evaluate_strength self));
         ($"children", VList (map to_dict children))].

End ProofNode.

(** ** [class KnowledgeBase] *)
Module KnowledgeBase.

Record t : Type := mk {
  entries : PyDict.dict KnowledgeEntry.t
}.

Definition init : t := mk [].

Definition add_entry (self : t) (entry : KnowledgeEntry.t) : t :=
  if negb (PyDict.contains (entries self) (KnowledgeEntry.fingerprint entry))
  then mk (PyDict.set (entries self) (KnowledgeEntry.fingerprint entry) entry)
  else self.

Definition search_by_tag (self : t) (tag : PyStr.str)
  : list KnowledgeEntry.t :=
  flat_map (fun e => if list_contains (KnowledgeEntry.tags e) tag
                     then [e] else [])
           (PyDict.values (entries self)).

Definition all_entries (self : t) : list KnowledgeEntry.t :=
  PyDict.values (entries self).

(** A call of one of the three methods, and what it returns. *)
Inductive call : Type :=
| AddEntry (entry : KnowledgeEntry.t)
| SearchByTag (tag : PyStr.str)
| AllEntries.

Inductive reply : Type :=
| RNone
| REntries (l : list KnowledgeEntry.t).

(** The base after the call, with the returned value. *)
Definition run (self : t) (c : call) : t * reply :=
  match c with
  | AddEntry entry => (add_entry self entry, RNone)
  | SearchByTag tag => (self, REntries (search_by_tag self tag))
  | AllEntries => (self, REntries (all_entries self))
  end.

Definition run_all (self : t) (cs : list call) : t :=
  fold_left (fun kb c => fst (run kb c)) cs self.

End KnowledgeBase.

(** ** Specification-side definitions *)

(** The weight table as the specification words it: five named categories
    and a default. *)
Definition weight (proof_type : PyStr.str) : Float64.float :=
  if PyStr.eqb proof_type $"experiment" then Float64.f1_0
  else if PyStr.eqb proof_type $"observation" then Float64.f0_8
  else if PyStr.eqb proof_type $"text" then Float64.f0_6
  else if PyStr.eqb proof_type $"tradition" then Float64.f0_4
  else if PyStr.eqb proof_type $"opinion" then Float64.f0_2
  else Float64.f0_1.

(** A lowercase hexadecimal digit: [0-9] or [a-f]. *)
Definition is_lower_hex (c : N) : bool :=
  ((48 <=? c) && (c <=? 57) || (97 <=? c) && (c <=? 102))%N.

(** An entry as [KnowledgeEntry(content, source, tags)] builds it. *)
Definition constructed (e : KnowledgeEntry.t) : Prop :=
  exists uuid now,
    KnowledgeEntry.init uuid now (KnowledgeEntry.content e)
      (KnowledgeEntry.source e) (KnowledgeEntry.tags e) = Ok e.

Definition constructed_call (c : KnowledgeBase.call) : Prop :=
  match c with
  | KnowledgeBase.AddEntry e => constructed e
  | _ => True
  end.

(** The height of a proof tree (a leaf has depth 1), and how deep the
    mappings of a view nest. *)
Fixpoint depth (n : ProofNode.t) : nat :=
  let '(ProofNode.mk _ _ _ _ children _) := n in
  S (list_max (map depth children)).

Fixpoint view_depth (v : value) : nat :=
  match v with
  | VStr _ | VFloat _ => O
  | VList l => list_max (map view_depth l)
  | VDict d => S (list_max (map (fun kv => let '(_, x) := kv in view_depth x) d))
  end.

(** A node with its children replaced. *)
Definition with_children (n : ProofNode.t) (l : list ProofNode.t)
  : ProofNode.t :=
  let '(ProofNode.mk i c s p _ cr) := n in ProofNode.mk i c s p l cr.

(** Trees for examples: only the proof type and the children matter to the
    score. *)
Definition leaf (proof_type : PyStr.str) : ProofNode.t :=
  ProofNode.init $"id" $"now" $"claim" $"source" proof_type.

Definition tree (proof_type : PyStr.str) (children : list ProofNode.t)
  : ProofNode.t :=
  fold_left ProofNode.add_child children (leaf proof_type).





(** The invariant of a knowledge base: keys are pairwise distinct, each key
    is the fingerprint of the entry stored under it, and every entry is as
    its constructor built it. *)
Definition kb_inv (kb : KnowledgeBase.t) : Prop :=
  NoDup (PyDict.keys (KnowledgeBase.entries kb)) /\
  Forall (fun kv => KnowledgeEntry.fingerprint (snd kv) = fst kv)
         (KnowledgeBase.entries kb) /\
  Forall (fun kv => constructed (snd kv)) (KnowledgeBase.entries kb).

(** An entry with given tags, for examples of tag search. *)
Definition sample_entry (tags : list PyStr.str) : KnowledgeEntry.t :=
  KnowledgeEntry.mk $"id-1" $"2024-01-01T00:00:00" $"Water boils."
    $"wikipedia.org" tags [].

(** Induction on a proof tree, with the property known for all children. *)
Section ProofNodeInduction.
Variable P : ProofNode.t -> Prop.
Hypothesis step :
  forall i c s p ch cr, Forall P ch -> P (ProofNode.mk i c s p ch cr).

Fixpoint ProofNode_induction (n : ProofNode.t) : P n :=
  let '(ProofNode.mk i c s p ch cr) := n in
  step i c s p ch cr
    ((fix all (l : list ProofNode.t) : Forall P l :=
        match l with
        | [] => Forall_nil P
        | x :: l' => Forall_cons x (ProofNode_induction x) (all l')
        end) ch).
End ProofNodeInduction.

(** ** Definitions for further properties *)

(** What the score of a tree can depend on: the proof types and the shape. *)
Inductive shape : Type :=
| Shape (proof_type : PyStr.str) (children : list shape).

Fixpoint skeleton (n : ProofNode.t) : shape :=
  let '(ProofNode.mk _ _ _ proof_type children _) := n in
  Shape proof_type (map skeleton children).

(** The score read off the shape alone. *)
Fixpoint shape_strength (s : shape) : Float64.float :=
  let '(Shape proof_type children) := s in
  Float64.py_round
    (Float64.fadd
       (Float64.fmul Float64.f1_0
          (PyDict.get_default ProofNode.weight_map proof_type Float64.f0_1))
       (Float64.fmul (Float64.py_sum (map shape_strength children))
          Float64.f0_5)) 3.

(** The entries of [l] whose fingerprint is neither in [seen] nor carried
    by an earlier entry of [l]. *)
Fixpoint first_occurrences (seen : list PyStr.str)
         (l : list KnowledgeEntry.t) : list KnowledgeEntry.t :=
  match l with
  | [] => []
  | e :: l' =>
      if list_contains seen (KnowledgeEntry.fingerprint e)
      then first_occurrences seen l'
      else e :: first_occurrences (KnowledgeEntry.fingerprint e :: seen) l'
  end.

(** [add_entry] for each entry of [l], in order. *)
Definition add_entries (kb : KnowledgeBase.t) (l : list KnowledgeEntry.t)
  : KnowledgeBase.t :=
  fold_left KnowledgeBase.add_entry l kb.

(** Keys are pairwise distinct and each is the fingerprint of its entry. *)
Definition keyed (kb : KnowledgeBase.t) : Prop :=
  NoDup (PyDict.keys (KnowledgeBase.entries kb)) /\
  Forall (fun kv => KnowledgeEntry.fingerprint (snd kv) = fst kv)
         (KnowledgeBase.entries kb).


(** ** Definitions for the monotonicity of the strength *)








(** [n'] is [n] grown: the same node, with every child of [n] grown in its
    place and possibly more children after them.  These are the trees that
    calls of [add_child] on [n] and on nodes below it lead to. *)
Inductive grown : ProofNode.t -> ProofNode.t -> Prop :=
| grown_node i c s p ch cr ch' more :
    Forall2 grown ch ch' ->
    grown (ProofNode.mk i c s p ch cr)
          (ProofNode.mk i c s p (ch' ++ more) cr).

(** ** The compensated [sum] of later interpreters *)

(** The built-in [sum] over floats from CPython 3.12 on: the same loop
    with Neumaier's compensation.  The first item is added to the integer
    [0] as before; from then on [f_result] holds the running float sum and
    [c] collects what each addition rounded away,
    [(f_result - t) + x] when [fabs(f_result) >= fabs(x)] and
    [(x - t) + f_result] otherwise, for [t = f_result + x]; at the end [c]
    is added if it is finite and not zero. *)
Definition compensated_step (st : Float64.float * Float64.float)
           (x : Float64.float) : Float64.float * Float64.float :=
  let '(f_result, c) := st in
  let t := Float64.fadd f_result x in
  let fsub := SFsub Float64.prec Float64.emax in
  if Float64.fleb (SFabs x) (SFabs f_result)
  then (t, Float64.fadd c (Float64.fadd (fsub f_result t) x))
  else (t, Float64.fadd c (Float64.fadd (fsub x t) f_result)).

Definition py_sum_compensated (l : list Float64.float) : Float64.float :=
  match l with
  | [] => Float64.f0_0
  | x :: items =>
      let '(f_result, c) :=
        fold_left compensated_step items
                  (Float64.fadd Float64.f0_0 x, Float64.f0_0) in
      match c with
      | S754_finite _ _ _ => Float64.fadd f_result c
      | _ => f_result
      end
  end.

(** [evaluate_strength] over a given [sum]. *)
Fixpoint evaluate_strength_with (sum : list Float64.float -> Float64.float)
         (self : ProofNode.t) : Float64.float :=
  let '(ProofNode.mk _ _ _ proof_type children _) := self in
  let base := Float64.f1_0 in
  let base :=
    Float64.fmul base
      (PyDict.get_default ProofNode.weight_map proof_type Float64.f0_1) in
  let base :=
    Float64.fadd base
      (Float64.fmul (sum (map (evaluate_strength_with sum) children))
                    Float64.f0_5) in
  Float64.py_round base 3.

(** * Strings, dictionaries, lists *)

Lemma PyStr_eqb_eq (a b : PyStr.str) : PyStr.eqb a b = true <-> a = b.
Proof.
  revert b; induction a as [|x a IH]; intros [|y b]; simpl; split;
    try congruence; try reflexivity.
  - intros H. apply andb_true_iff in H as [Hx Hab].
    apply N.eqb_eq in Hx. apply IH in Hab. congruence.
  - intros H. injection H as -> ->.
    apply andb_true_iff. split; [apply N.eqb_refl | now apply IH].
Qed.

Lemma PyStr_eqb_refl (a : PyStr.str) : PyStr.eqb a a = true.
Proof. now apply PyStr_eqb_eq. Qed.

Lemma PyStr_eqb_neq (a b : PyStr.str) : PyStr.eqb a b = false <-> a <> b.
Proof.
  split.
  - intros H E. apply PyStr_eqb_eq in E. congruence.
  - intros H. destruct (PyStr.eqb a b) eqn:E; [|reflexivity].
    apply PyStr_eqb_eq in E. contradiction.
Qed.

Lemma list_contains_In (l : list PyStr.str) (x : PyStr.str) :
  list_contains l x = true <-> In x l.
Proof.
  induction l as [|y l IH]; simpl.
  - split; [discriminate | tauto].
  - rewrite orb_true_iff, PyStr_eqb_eq, IH. tauto.
Qed.

Section DictFacts.
Context {V : Type}.
Implicit Types (d : PyDict.dict V) (k : PyStr.str) (v : V).

Lemma contains_In_keys d k :
  PyDict.contains d k = true <-> In k (PyDict.keys d).
Proof.
  induction d as [|[k' v'] d IH]; simpl.
  - split; [discriminate | tauto].
  - rewrite orb_true_iff, PyStr_eqb_eq, IH. tauto.
Qed.

Lemma contains_get d k :
  PyDict.contains d k = false <-> PyDict.get d k = None.
Proof.
  induction d as [|[k' v'] d IH]; simpl; [tauto|].
  destruct (PyStr.eqb k' k); simpl; [split; discriminate | exact IH].
Qed.

Lemma set_absent d k v :
  PyDict.contains d k = false -> PyDict.set d k v = d ++ [(k, v)].
Proof.
  induction d as [|[k' v'] d IH]; simpl; [reflexivity|].
  destruct (PyStr.eqb k' k); simpl; [discriminate|].
  intros H. now rewrite IH.
Qed.

Lemma get_app_absent d k k' v :
  PyDict.get (d ++ [(k, v)]) k' =
  match PyDict.get d k' with
  | Some x => Some x
  | None => if PyStr.eqb k k' then Some v else None
  end.
Proof.
  induction d as [|[k0 v0] d IH]; simpl; [reflexivity|].
  destruct (PyStr.eqb k0 k'); [reflexivity | exact IH].
Qed.

Lemma get_In d k v : PyDict.get d k = Some v -> In (k, v) d.
Proof.
  induction d as [|[k' v'] d IH]; simpl; [discriminate|].
  destruct (PyStr.eqb k' k) eqn:E.
  - apply PyStr_eqb_eq in E. intros [= ->]. left. now subst.
  - intros H. right. now apply IH.
Qed.

End DictFacts.

(** * The knowledge base *)

Lemma add_entry_absent (kb : KnowledgeBase.t) (e : KnowledgeEntry.t) :
  PyDict.contains (KnowledgeBase.entries kb) (KnowledgeEntry.fingerprint e)
    = false ->
  KnowledgeBase.entries (KnowledgeBase.add_entry kb e) =
  KnowledgeBase.entries kb ++ [(KnowledgeEntry.fingerprint e, e)].
Proof.
  intros H. unfold KnowledgeBase.add_entry. rewrite H. simpl.
  now apply set_absent.
Qed.

Lemma add_entry_present (kb : KnowledgeBase.t) (e : KnowledgeEntry.t) :
  PyDict.contains (KnowledgeBase.entries kb) (KnowledgeEntry.fingerprint e)
    = true ->
  KnowledgeBase.add_entry kb e = kb.
Proof.
  intros H. unfold KnowledgeBase.add_entry. now rewrite H.
Qed.

Lemma add_entry_contains (kb : KnowledgeBase.t) (e : KnowledgeEntry.t) :
  PyDict.contains (KnowledgeBase.entries (KnowledgeBase.add_entry kb e))
    (KnowledgeEntry.fingerprint e) = true.
Proof.
  destruct (PyDict.contains (KnowledgeBase.entries kb)
              (KnowledgeEntry.fingerprint e)) eqn:H.
  - now rewrite add_entry_present.
  - rewrite add_entry_absent by assumption.
    apply contains_In_keys. unfold PyDict.keys. rewrite map_app.
    apply in_or_app. right. now left.
Qed.

Lemma init_fields uuid now content source tags e :
  KnowledgeEntry.init uuid now content source tags = Ok e ->
  KnowledgeEntry.id e = uuid /\ KnowledgeEntry.timestamp e = now /\
  KnowledgeEntry.content e = content /\ KnowledgeEntry.source e = source /\
  KnowledgeEntry.tags e = tags /\
  KnowledgeEntry.fingerprint_of content source
    = Ok (KnowledgeEntry.fingerprint e).
Proof.
  unfold KnowledgeEntry.init, KnowledgeEntry.compute_fingerprint. simpl.
  destruct (KnowledgeEntry.fingerprint_of content source) as [fp|x];
    [|discriminate].
  intros [= <-]. simpl. tauto.
Qed.

Lemma constructed_fingerprint (e : KnowledgeEntry.t) :
  constructed e ->
  KnowledgeEntry.compute_fingerprint e = Ok (KnowledgeEntry.fingerprint e).
Proof.
  intros (uuid & now & H). now apply init_fields in H.
Qed.

Lemma search_by_tag_filter (kb : KnowledgeBase.t) (tag : PyStr.str) :
  KnowledgeBase.search_by_tag kb tag =
  filter (fun e => list_contains (KnowledgeEntry.tags e) tag)
         (KnowledgeBase.all_entries kb).
Proof.
  unfold KnowledgeBase.search_by_tag, KnowledgeBase.all_entries.
  induction (PyDict.values (KnowledgeBase.entries kb)) as [|e l IH];
    simpl; [reflexivity|].
  destruct (list_contains (KnowledgeEntry.tags e) tag); simpl; now rewrite IH.
Qed.

Lemma kb_inv_init : kb_inv KnowledgeBase.init.
Proof. repeat split; constructor. Qed.

Lemma kb_inv_add (kb : KnowledgeBase.t) (e : KnowledgeEntry.t) :
  constructed e -> kb_inv kb -> kb_inv (KnowledgeBase.add_entry kb e).
Proof.
  intros He (Hnd & Hfp & Hc).
  destruct (PyDict.contains (KnowledgeBase.entries kb)
              (KnowledgeEntry.fingerprint e)) eqn:H.
  - rewrite add_entry_present by assumption. now repeat split.
  - unfold kb_inv. rewrite add_entry_absent by assumption.
    repeat split.
    + unfold PyDict.keys. rewrite map_app. simpl.
      apply NoDup_app; [assumption | repeat constructor; simpl; tauto |].
      intros k Hk [<- | []].
      apply contains_In_keys in Hk. congruence.
    + apply Forall_app. split; [assumption | now repeat constructor].
    + apply Forall_app. split; [assumption | now repeat constructor].
Qed.

Lemma kb_inv_run (kb : KnowledgeBase.t) (c : KnowledgeBase.call) :
  constructed_call c -> kb_inv kb -> kb_inv (fst (KnowledgeBase.run kb c)).
Proof.
  destruct c; simpl; intros Hc Hkb; [now apply kb_inv_add | assumption ..].
Qed.

Lemma kb_inv_run_all (cs : list KnowledgeBase.call) (kb : KnowledgeBase.t) :
  Forall constructed_call cs -> kb_inv kb ->
  kb_inv (KnowledgeBase.run_all kb cs).
Proof.
  unfold KnowledgeBase.run_all.
  revert kb; induction cs as [|c cs IH]; intros kb Hcs Hkb; simpl;
    [assumption|].
  inversion Hcs; subst. apply IH; [assumption | now apply kb_inv_run].
Qed.

Lemma run_grows (kb : KnowledgeBase.t) (c : KnowledgeBase.call) :
  exists more,
    KnowledgeBase.entries (fst (KnowledgeBase.run kb c)) =
    KnowledgeBase.entries kb ++ more.
Proof.
  destruct c as [e | tag |]; simpl.
  - destruct (PyDict.contains (KnowledgeBase.entries kb)
                (KnowledgeEntry.fingerprint e)) eqn:H.
    + rewrite add_entry_present by assumption. exists []. now rewrite app_nil_r.
    + rewrite add_entry_absent by assumption. now eexists.
  - exists []. now rewrite app_nil_r.
  - exists []. now rewrite app_nil_r.
Qed.

Lemma run_all_grows (cs : list KnowledgeBase.call) (kb : KnowledgeBase.t) :
  exists more,
    KnowledgeBase.entries (KnowledgeBase.run_all kb cs) =
    KnowledgeBase.entries kb ++ more.
Proof.
  unfold KnowledgeBase.run_all.
  revert kb; induction cs as [|c cs IH]; intros kb; simpl.
  - exists []. now rewrite app_nil_r.
  - destruct (IH (fst (KnowledgeBase.run kb c))) as [m1 H1].
    destruct (run_grows kb c) as [m2 H2].
    exists (m2 ++ m1). now rewrite H1, H2, app_assoc.
Qed.

Lemma nth_error_keys_inj {V} (d : PyDict.dict V) i j kv1 kv2 :
  NoDup (PyDict.keys d) ->
  nth_error d i = Some kv1 -> nth_error d j = Some kv2 ->
  fst kv1 = fst kv2 -> i = j.
Proof.
  intros Hnd H1 H2 E.
  apply (proj1 (NoDup_nth_error (PyDict.keys d)) Hnd).
  - apply nth_error_Some. unfold PyDict.keys.
    rewrite nth_error_map, H1. discriminate.
  - unfold PyDict.keys. rewrite !nth_error_map, H1, H2. simpl. congruence.
Qed.

(** C2. [add_entry] stores the entry under its fingerprint when no entry
    has that fingerprint, and otherwise leaves the base as it is; two
    entries built from the same content and source leave one stored entry,
    the first. *)
Theorem add_entry_first_write_wins :
  forall (kb : KnowledgeBase.t) (e : KnowledgeEntry.t),
    let fp := KnowledgeEntry.fingerprint e in
    (PyDict.contains (KnowledgeBase.entries kb) fp = false ->
     KnowledgeBase.entries (KnowledgeBase.add_entry kb e) =
       KnowledgeBase.entries kb ++ [(fp, e)] /\
     PyDict.get (KnowledgeBase.entries (KnowledgeBase.add_entry kb e)) fp
       = Some e) /\
    (PyDict.contains (KnowledgeBase.entries kb) fp = true ->
     KnowledgeBase.add_entry kb e = kb) /\
    (forall uuid now tags uuid' now' tags' e',
       KnowledgeEntry.init uuid now (KnowledgeEntry.content e)
         (KnowledgeEntry.source e) tags = Ok e ->
       KnowledgeEntry.init uuid' now' (KnowledgeEntry.content e)
         (KnowledgeEntry.source e) tags' = Ok e' ->
       KnowledgeBase.add_entry (KnowledgeBase.add_entry kb e) e' =
         KnowledgeBase.add_entry kb e /\
       KnowledgeBase.all_entries
         (KnowledgeBase.add_entry
            (KnowledgeBase.add_entry KnowledgeBase.init e) e') = [e]).
Proof.
  intros kb e fp. repeat split.
  - now apply add_entry_absent.
  - rewrite add_entry_absent by assumption.
    rewrite get_app_absent.
    apply contains_get in H. rewrite H. subst fp.
    now rewrite PyStr_eqb_refl.
  - now apply add_entry_present.
  - apply add_entry_present.
    apply init_fields in H as (_ & _ & _ & _ & _ & H).
    apply init_fields in H0 as (_ & _ & _ & _ & _ & H0).
    assert (E : KnowledgeEntry.fingerprint e' = KnowledgeEntry.fingerprint e)
      by congruence.
    rewrite E. apply add_entry_contains.
  - apply init_fields in H as (_ & _ & _ & _ & _ & H).
    apply init_fields in H0 as (_ & _ & _ & _ & _ & H0).
    assert (E : KnowledgeEntry.fingerprint e' = KnowledgeEntry.fingerprint e)
      by congruence.
    unfold KnowledgeBase.add_entry at 2. simpl.
    unfold KnowledgeBase.add_entry. simpl.
    rewrite E, PyStr_eqb_refl. reflexivity.
Qed.

Lemma add_entry_first_write_wins_witness :
  let fp :=
    $"ba7816bf8f01cfea414140de5dae2223b00361a396177a9cb410ff61f20015ad" in
  let e := KnowledgeEntry.mk $"id-1" $"t1" $"ab" $"c" [$"x"] fp in
  let e' := KnowledgeEntry.mk $"id-2" $"t2" $"ab" $"c" [] fp in
  KnowledgeBase.all_entries
    (KnowledgeBase.add_entry
       (KnowledgeBase.add_entry KnowledgeBase.init e) e') = [e].
Proof.
  intros fp e e'.
  assert (H : KnowledgeEntry.init $"id-1" $"t1" $"ab" $"c" [$"x"] = Ok e)
    by (vm_compute; reflexivity).
  assert (H' : KnowledgeEntry.init $"id-2" $"t2" $"ab" $"c" [] = Ok e')
    by (vm_compute; reflexivity).
  exact (proj2 (proj2 (proj2 (add_entry_first_write_wins
                                KnowledgeBase.init e))
                  $"id-1" $"t1" [$"x"] $"id-2" $"t2" [] e' H H')).
Defined.

Lemma search_by_tag_none (kb : KnowledgeBase.t) (t : PyStr.str) :
  (forall e, In e (KnowledgeBase.all_entries kb) ->
             ~ In t (KnowledgeEntry.tags e)) ->
  KnowledgeBase.search_by_tag kb t = [].
Proof.
  rewrite search_by_tag_filter.
  induction (KnowledgeBase.all_entries kb) as [|x l IH]; intros Hnone;
    [reflexivity|].
  simpl. destruct (list_contains (KnowledgeEntry.tags x) t) eqn:E.
  - apply list_contains_In in E. exfalso.
    apply (Hnone x); [now left | assumption].
  - apply IH. intros e He. apply Hnone. now right.
Qed.

(** C4. A stored entry is in the result of [search_by_tag] exactly when the
    tag is one of its tags; with no such entry the result is empty. *)
Theorem search_by_tag_correct :
  forall (kb : KnowledgeBase.t) (e : KnowledgeEntry.t) (t : PyStr.str),
    In e (KnowledgeBase.all_entries kb) ->
    (In e (KnowledgeBase.search_by_tag kb t) <-> In t (KnowledgeEntry.tags e))
    /\ ((forall e', In e' (KnowledgeBase.all_entries kb) ->
                    ~ In t (KnowledgeEntry.tags e')) ->
        KnowledgeBase.search_by_tag kb t = []).
Proof.
  intros kb e t He. split.
  - rewrite search_by_tag_filter, filter_In, list_contains_In. tauto.
  - apply search_by_tag_none.
Qed.

Lemma search_by_tag_correct_witness :
  let e := sample_entry [$"science"; $"physics"] in
  let kb := KnowledgeBase.add_entry KnowledgeBase.init e in
  In e (KnowledgeBase.all_entries kb) /\
  (In e (KnowledgeBase.search_by_tag kb $"physics") <->
   In $"physics" (KnowledgeEntry.tags e)).
Proof.
  intros e kb.
  assert (H : In e (KnowledgeBase.all_entries kb)) by (simpl; now left).
  split; [exact H|].
  exact (proj1 (search_by_tag_correct kb e $"physics" H)).
Defined.

(** C9. [search_by_tag] is the filter of [all_entries] by the tag, in the
    order of [all_entries]. *)
Theorem search_by_tag_order :
  forall (kb : KnowledgeBase.t) (t : PyStr.str),
    KnowledgeBase.search_by_tag kb t =
    filter (fun e => list_contains (KnowledgeEntry.tags e) t)
           (KnowledgeBase.all_entries kb).
Proof.
  intros kb t.
  unfold KnowledgeBase.search_by_tag, KnowledgeBase.all_entries.
  induction (PyDict.values (KnowledgeBase.entries kb)) as [|e l IH];
    simpl; [reflexivity|].
  destruct (list_contains (KnowledgeEntry.tags e) t); simpl; now rewrite IH.
Qed.



Example fingerprint_abc :
  KnowledgeEntry.fingerprint_of $"ab" $"c" =
  Ok $"ba7816bf8f01cfea414140de5dae2223b00361a396177a9cb410ff61f20015ad".
Proof. vm_compute. reflexivity. Qed.

(** C7. In every base reached from the empty one by calls of the three
    methods on constructed entries, each key is the fingerprint of its
    entry, no two stored entries share content and source, reads leave the
    base as it is, and further calls only append entries. *)
Theorem knowledge_base_invariant :
  forall cs : list KnowledgeBase.call,
    Forall constructed_call cs ->
    let kb := KnowledgeBase.run_all KnowledgeBase.init cs in
    (forall fp e,
       PyDict.get (KnowledgeBase.entries kb) fp = Some e ->
       KnowledgeEntry.fingerprint e = fp) /\
    (forall fp,
       In fp (PyDict.keys (KnowledgeBase.entries kb)) ->
       exists e, PyDict.get (KnowledgeBase.entries kb) fp = Some e /\
                 KnowledgeEntry.fingerprint e = fp) /\
    (forall i j e1 e2,
       nth_error (KnowledgeBase.all_entries kb) i = Some e1 ->
       nth_error (KnowledgeBase.all_entries kb) j = Some e2 ->
       KnowledgeEntry.content e1 = KnowledgeEntry.content e2 ->
       KnowledgeEntry.source e1 = KnowledgeEntry.source e2 ->
       i = j) /\
    (forall t, fst (KnowledgeBase.run kb (KnowledgeBase.SearchByTag t)) = kb) /\
    fst (KnowledgeBase.run kb KnowledgeBase.AllEntries) = kb /\
    (forall cs', exists more,
       KnowledgeBase.entries (KnowledgeBase.run_all kb cs') =
       KnowledgeBase.entries kb ++ more).
Proof.
  intros cs Hcs kb.
  assert (Hinv : kb_inv kb)
    by (apply kb_inv_run_all; [assumption | apply kb_inv_init]).
  destruct Hinv as (Hnd & Hfp & Hc).
  assert (Hget : forall fp e,
             PyDict.get (KnowledgeBase.entries kb) fp = Some e ->
             KnowledgeEntry.fingerprint e = fp).
  { intros fp e H. apply get_In in H.
    rewrite Forall_forall in Hfp. exact (Hfp _ H). }
  split; [exact Hget|]. split; [|split; [|repeat split]].
  - intros fp Hin.
    destruct (PyDict.get (KnowledgeBase.entries kb) fp) as [e|] eqn:E.
    + exists e. split; [reflexivity | now apply Hget].
    + apply contains_get in E. apply contains_In_keys in Hin. congruence.
  - intros i j e1 e2 H1 H2 Ec Es.
    unfold KnowledgeBase.all_entries, PyDict.values in H1, H2.
    rewrite nth_error_map in H1, H2.
    destruct (nth_error (KnowledgeBase.entries kb) i) as [kv1|] eqn:N1;
      [|discriminate].
    destruct (nth_error (KnowledgeBase.entries kb) j) as [kv2|] eqn:N2;
      [|discriminate].
    injection H1 as <-. injection H2 as <-.
    apply (nth_error_keys_inj _ _ _ _ _ Hnd N1 N2).
    rewrite Forall_forall in Hfp, Hc.
    pose proof (nth_error_In _ _ N1) as I1.
    pose proof (nth_error_In _ _ N2) as I2.
    rewrite <- (Hfp _ I1), <- (Hfp _ I2).
    pose proof (constructed_fingerprint _ (Hc _ I1)) as F1.
    pose proof (constructed_fingerprint _ (Hc _ I2)) as F2.
    unfold KnowledgeEntry.compute_fingerprint in F1, F2.
    rewrite Ec, Es in F1. congruence.
  - intros cs'. apply run_all_grows.
Qed.

Lemma knowledge_base_invariant_witness :
  let e1 := KnowledgeEntry.mk $"id-1" $"t1" $"ab" $"c" [$"x"]
    $"ba7816bf8f01cfea414140de5dae2223b00361a396177a9cb410ff61f20015ad" in
  let e2 := KnowledgeEntry.mk $"id-2" $"t2" $"a" $"bc" []
    $"ba7816bf8f01cfea414140de5dae2223b00361a396177a9cb410ff61f20015ad" in
  let cs := [KnowledgeBase.AddEntry e1; KnowledgeBase.SearchByTag $"x";
             KnowledgeBase.AddEntry e2; KnowledgeBase.AllEntries] in
  Forall constructed_call cs /\
  KnowledgeBase.all_entries (KnowledgeBase.run_all KnowledgeBase.init cs)
    = [e1] /\
  forall fp e,
    PyDict.get (KnowledgeBase.entries
                  (KnowledgeBase.run_all KnowledgeBase.init cs)) fp = Some e ->
    KnowledgeEntry.fingerprint e = fp.
Proof.
  intros e1 e2 cs.
  assert (H : Forall constructed_call cs).
  { repeat constructor.
    - exists $"id-1", $"t1". vm_compute. reflexivity.
    - exists $"id-2", $"t2". vm_compute. reflexivity. }
  split; [exact H|]. split; [vm_compute; reflexivity|].
  exact (proj1 (knowledge_base_invariant cs H)).
Defined.

(** * The fingerprint *)

Lemma digest_length (data : list Byte.byte) :
  List.length (SHA256.digest data) = 32%nat.
Proof.
  unfold SHA256.digest. cbv zeta. rewrite length_map.
  generalize (SHA256.blocks
                (List.length
                   (SHA256.words
                      (List.length (SHA256.pad (map Byte.to_N data)))
                      (SHA256.pad (map Byte.to_N data))))
                (SHA256.words
                   (List.length (SHA256.pad (map Byte.to_N data)))
                   (SHA256.pad (map Byte.to_N data))) SHA256.H0).
  intros h. reflexivity.
Qed.

Lemma hex_of_byte_lower (b : Byte.byte) :
  is_lower_hex (SHA256.hex_digit (N.shiftr (Byte.to_N b) 4)) = true /\
  is_lower_hex (SHA256.hex_digit (N.land (Byte.to_N b) 15)) = true.
Proof. destruct b; split; reflexivity. Qed.

Lemma hexdigest_length (data : list Byte.byte) :
  List.length (SHA256.hexdigest data) = 64%nat.
Proof.
  unfold SHA256.hexdigest.
  pose proof (digest_length data) as H.
  revert H. generalize (SHA256.digest data) as l. intros l.
  assert (G : forall l : list Byte.byte,
             List.length
               (flat_map
                  (fun b => let n := Byte.to_N b in
                            [SHA256.hex_digit (N.shiftr n 4);
                             SHA256.hex_digit (N.land n 15)]) l)
             = (2 * List.length l)%nat).
  { clear. induction l as [|b l IH]; simpl; [reflexivity|].
    simpl in IH. rewrite IH. lia. }
  intros H. rewrite G, H. reflexivity.
Qed.

Lemma hexdigest_lower_hex (data : list Byte.byte) :
  Forall (fun c => is_lower_hex c = true) (SHA256.hexdigest data).
Proof.
  unfold SHA256.hexdigest.
  induction (SHA256.digest data) as [|b l IH]; simpl; [constructor|].
  destruct (hex_of_byte_lower b) as [H1 H2].
  constructor; [exact H1|]. constructor; [exact H2 | exact IH].
Qed.

Lemma encode_code_point_scalar (c : N) :
  PyStr.is_scalar c = true -> exists bs, PyStr.encode_code_point c = Ok bs.
Proof.
  unfold PyStr.is_scalar, PyStr.is_code_point, PyStr.encode_code_point.
  intros H. apply andb_true_iff in H as [Hc Hs].
  apply negb_true_iff in Hs. rewrite Hs, Hc.
  destruct (c <? 128)%N; [now eexists|].
  destruct (c <? 2048)%N; [now eexists|].
  destruct (c <? 65536)%N; now eexists.
Qed.

Lemma encode_code_point_surrogate (c : N) :
  PyStr.is_surrogate c = true ->
  PyStr.encode_code_point c = Raise UnicodeEncodeError.
Proof.
  unfold PyStr.encode_code_point. intros H. rewrite H.
  unfold PyStr.is_surrogate in H. apply andb_true_iff in H as [H1 H2].
  apply N.leb_le in H1, H2.
  destruct (N.ltb_spec c 128); [lia|].
  destruct (N.ltb_spec c 2048); [lia|].
  destruct (N.ltb_spec c 65536); [reflexivity | lia].
Qed.

Lemma encode_scalar (s : PyStr.str) :
  Forall (fun c => PyStr.is_scalar c = true) s ->
  exists data, PyStr.encode s = Ok data.
Proof.
  induction 1 as [|c s Hc Hs [rest IH]]; simpl; [now eexists|].
  destruct (encode_code_point_scalar c Hc) as [bs ->].
  rewrite IH. now eexists.
Qed.

Lemma encode_raises (s : PyStr.str) :
  Exists (fun c => PyStr.is_surrogate c = true) s ->
  PyStr.encode s = Raise UnicodeEncodeError.
Proof.
  induction 1 as [c s Hc | c s Hs IH]; simpl.
  - now rewrite encode_code_point_surrogate.
  - destruct (PyStr.encode_code_point c) as [bs | []]; [|reflexivity].
    now rewrite IH.
Qed.

Lemma init_raises uuid now content source tags :
  Exists (fun c => PyStr.is_surrogate c = true) (content ++ source) ->
  KnowledgeEntry.init uuid now content source tags = Raise UnicodeEncodeError.
Proof.
  intros H. unfold KnowledgeEntry.init, KnowledgeEntry.compute_fingerprint,
    KnowledgeEntry.fingerprint_of. simpl.
  now rewrite (encode_raises _ H).
Qed.

(** C3, as the code has it.  For content and source free of surrogate code
    points, the constructor stores as fingerprint the SHA-256 digest of the
    UTF-8 bytes of [content ++ source] in 64 lowercase hexadecimal digits;
    computing it again, or building another entry from the same content and
    source, gives the same string.  With a surrogate code point in content
    or source the constructor raises [UnicodeEncodeError]. *)
Theorem fingerprint_sha256_hex :
  forall (uuid now content source : PyStr.str) (tags : list PyStr.str),
    (Forall (fun c => PyStr.is_scalar c = true) (content ++ source) ->
     exists data e,
       PyStr.encode (content ++ source) = Ok data /\
       KnowledgeEntry.init uuid now content source tags = Ok e /\
       KnowledgeEntry.fingerprint e = SHA256.hexdigest data /\
       List.length (KnowledgeEntry.fingerprint e) = 64%nat /\
       Forall (fun c => is_lower_hex c = true) (KnowledgeEntry.fingerprint e) /\
       KnowledgeEntry.compute_fingerprint e
         = Ok (KnowledgeEntry.fingerprint e) /\
       (forall uuid' now' tags' e',
          KnowledgeEntry.init uuid' now' content source tags' = Ok e' ->
          KnowledgeEntry.fingerprint e' = KnowledgeEntry.fingerprint e)) /\
    (Exists (fun c => PyStr.is_surrogate c = true) (content ++ source) ->
     KnowledgeEntry.init uuid now content source tags
       = Raise UnicodeEncodeError).
Proof.
  intros uuid now content source tags. split; [|apply init_raises].
  intros Hs.
  destruct (encode_scalar _ Hs) as [data Hd].
  exists data.
  exists (KnowledgeEntry.mk uuid now content source tags
            (SHA256.hexdigest data)).
  assert (Hfp : KnowledgeEntry.fingerprint_of content source
                = Ok (SHA256.hexdigest data))
    by (unfold KnowledgeEntry.fingerprint_of; now rewrite Hd).
  split; [exact Hd|]. split; [|split; [reflexivity|]].
  { unfold KnowledgeEntry.init, KnowledgeEntry.compute_fingerprint. simpl.
    now rewrite Hfp. }
  cbn [KnowledgeEntry.fingerprint]. split; [apply hexdigest_length|].
  split; [apply hexdigest_lower_hex|]. split; [exact Hfp|].
  intros uuid' now' tags' e' H.
    apply init_fields in H as (_ & _ & _ & _ & _ & H). congruence.
Qed.

Lemma fingerprint_sha256_hex_witness :
  exists e,
    KnowledgeEntry.init $"id-1" $"t1" $"" $"" [] = Ok e /\
    KnowledgeEntry.fingerprint e =
    $"e3b0c44298fc1c149afbf4c8996fb92427ae41e4649b934ca495991b7852b855".
Proof.
  assert (Hs : Forall (fun c => PyStr.is_scalar c = true) ($"" ++ $""))
    by constructor.
  destruct (proj1 (fingerprint_sha256_hex $"id-1" $"t1" $"" $"" []) Hs)
    as (data & e & Hd & Hi & Hf & _).
  exists e. split; [exact Hi|].
  rewrite Hf. injection Hd as <-. vm_compute. reflexivity.
Defined.

(** C3 fails as stated: a string holding a lone surrogate is not accepted,
    the constructor raises [UnicodeEncodeError]. *)
Lemma fingerprint_surrogate_refused :
  PyStr.is_code_point 0xD800%N = true /\
  KnowledgeEntry.init $"id-1" $"t1" [0xD800%N] $"" [] =
  Raise UnicodeEncodeError.
Proof. split; reflexivity. Qed.

(** * The proof tree *)

(** The literals are the floats nearest to their decimals. *)
Example literals_nearest :
  Float64.f1_0 = Float64.of_Z 1 /\
  Float64.f0_5 = Float64.of_decimal 5 1 /\
  Float64.f0_8 = Float64.of_decimal 8 1 /\
  Float64.f0_6 = Float64.of_decimal 6 1 /\
  Float64.f0_4 = Float64.of_decimal 4 1 /\
  Float64.f0_2 = Float64.of_decimal 2 1 /\
  Float64.f0_1 = Float64.of_decimal 1 1.
Proof. repeat split; vm_compute; reflexivity. Qed.

Lemma fmul_comm (x y : Float64.float) : Float64.fmul x y = Float64.fmul y x.
Proof.
  unfold Float64.fmul.
  destruct x as [sx | sx | | sx mx ex], y as [sy | sy | | sy my ey]; simpl;
    try reflexivity; try (now rewrite xorb_comm).
  now rewrite xorb_comm, Pos.mul_comm, Z.add_comm.
Qed.

Lemma fadd_comm (x y : Float64.float) : Float64.fadd x y = Float64.fadd y x.
Proof.
  unfold Float64.fadd.
  destruct x as [sx | sx | | sx mx ex], y as [sy | sy | | sy my ey]; simpl;
    try reflexivity; try (now destruct sx, sy).
  now rewrite Z.min_comm, Z.add_comm.
Qed.

Lemma weight_cases (pt : PyStr.str) :
  In (weight pt)
     [Float64.f1_0; Float64.f0_8; Float64.f0_6; Float64.f0_4; Float64.f0_2;
      Float64.f0_1].
Proof.
  unfold weight.
  repeat match goal with
         | |- context [PyStr.eqb pt ?k] => destruct (PyStr.eqb pt k)
         end; simpl; tauto.
Qed.

Lemma weight_map_get (pt : PyStr.str) :
  PyDict.get_default ProofNode.weight_map pt Float64.f0_1 = weight pt.
Proof.
  assert (S : forall k, PyStr.eqb k pt = PyStr.eqb pt k).
  { intros k. destruct (PyStr.eqb pt k) eqn:E.
    - apply PyStr_eqb_eq in E. subst. apply PyStr_eqb_refl.
    - apply PyStr_eqb_neq. apply PyStr_eqb_neq in E. congruence. }
  unfold PyDict.get_default, ProofNode.weight_map, weight. cbn [PyDict.get].
  rewrite !S.
  repeat match goal with
         | |- context [PyStr.eqb pt ?k] => destruct (PyStr.eqb pt k)
         end; reflexivity.
Qed.

Lemma fmul_one_weight (pt : PyStr.str) :
  Float64.fmul Float64.f1_0 (weight pt) = weight pt.
Proof.
  pose proof (weight_cases pt) as H. simpl in H.
  repeat (destruct H as [<- | H]; [reflexivity|]). contradiction.
Qed.

Lemma fadd_weight_zero (pt : PyStr.str) :
  Float64.fadd (weight pt) Float64.f0_0 = weight pt.
Proof.
  pose proof (weight_cases pt) as H. simpl in H.
  repeat (destruct H as [<- | H]; [reflexivity|]). contradiction.
Qed.

Lemma py_round_weight (pt : PyStr.str) :
  Float64.py_round (weight pt) 3 = weight pt.
Proof.
  pose proof (weight_cases pt) as H. simpl in H.
  repeat (destruct H as [<- | H]; [vm_compute; reflexivity|]). contradiction.
Qed.

(** C1. The strength of a node is its weight plus half the sum of its
    children's strengths, rounded to three places at this node; the
    children's strengths in the sum are the rounded ones; a leaf gets its
    weight rounded. *)
Theorem evaluate_strength_formula :
  forall n : ProofNode.t,
    ProofNode.evaluate_strength n =
    Float64.py_round
      (Float64.fadd
         (weight (ProofNode.proof_type n))
         (Float64.fmul Float64.f0_5
            (Float64.py_sum
               (map ProofNode.evaluate_strength (ProofNode.children n)))))
      3
    /\ (ProofNode.children n = [] ->
        ProofNode.evaluate_strength n =
        Float64.py_round (weight (ProofNode.proof_type n)) 3).
Proof.
  intros [i c s pt ch cr].
  assert (E : ProofNode.evaluate_strength (ProofNode.mk i c s pt ch cr) =
              Float64.py_round
                (Float64.fadd (weight pt)
                   (Float64.fmul Float64.f0_5
                      (Float64.py_sum (map ProofNode.evaluate_strength ch))))
                3).
  { cbn [ProofNode.evaluate_strength].
    rewrite weight_map_get, fmul_one_weight.
    now rewrite (fmul_comm _ Float64.f0_5). }
  split; [exact E|].
  cbn [ProofNode.children ProofNode.proof_type]. intros ->.
  rewrite E. cbn [map]. unfold Float64.py_sum. cbn [fold_left].
  change (Float64.fmul Float64.f0_5 Float64.f0_0) with Float64.f0_0.
  now rewrite fadd_weight_zero.
Qed.

Lemma evaluate_strength_formula_witness :
  ProofNode.evaluate_strength (leaf $"experiment") =
  Float64.py_round (weight $"experiment") 3.
Proof.
  exact (proj2 (evaluate_strength_formula (leaf $"experiment")) eq_refl).
Defined.

(** Leaf scoring: a leaf evaluates to its weight, [1.0] for an experiment
    and [0.1] for a label outside the table. *)
Example leaf_scoring :
  (forall pt, ProofNode.evaluate_strength (leaf pt) = weight pt) /\
  ProofNode.evaluate_strength (leaf $"experiment") = Float64.f1_0 /\
  ProofNode.evaluate_strength (leaf $"unknownlabel") = Float64.f0_1.
Proof.
  split; [|split; reflexivity].
  intros pt. unfold leaf, ProofNode.init.
  cbn [ProofNode.evaluate_strength map].
  rewrite weight_map_get, fmul_one_weight.
  change (Float64.fmul (Float64.py_sum []) Float64.f0_5) with Float64.f0_0.
  rewrite fadd_weight_zero. apply py_round_weight.
Qed.

(** Recursive scoring: a text root over an observation and a tradition
    leaf evaluates to [1.2]. *)
Example recursive_scoring :
  ProofNode.evaluate_strength
    (tree $"text" [leaf $"observation"; leaf $"tradition"]) =
  Float64.of_decimal 12 1.
Proof. vm_compute. reflexivity. Qed.

(** The keys of a node's view, in order. *)
Example to_dict_keys (n : ProofNode.t) :
  match ProofNode.to_dict n with
  | VDict d => map fst d
  | _ => []
  end = [$"id"; $"claim"; $"source"; $"proof_type"; $"created"; $"strength";
         $"children"].
Proof. destruct n. reflexivity. Qed.

(** C6. The view of a node is the mapping with the seven keys in order,
    [strength] holding [evaluate_strength] of that node and [children] the
    views of the children in order; it nests as deep as the tree. *)
Theorem to_dict_view :
  forall n : ProofNode.t,
    ProofNode.to_dict n =
    VDict [($"id", VStr (ProofNode.id n));
           ($"claim", VStr (ProofNode.claim n));
           ($"source", VStr (ProofNode.source n));
           ($"proof_type", VStr (ProofNode.proof_type n));
           ($"created", VStr (ProofNode.created n));
           ($"strength", VFloat (ProofNode.evaluate_strength n));
           ($"children", VList (map ProofNode.to_dict (ProofNode.children n)))]
    /\ view_depth (ProofNode.to_dict n) = depth n.
Proof.
  intros n. split; [destruct n; reflexivity|].
  induction n as [i c s pt ch cr IH] using ProofNode_induction.
  cbn [ProofNode.to_dict view_depth depth map].
  rewrite map_map. f_equal.
  cbn [list_max fold_right]. rewrite !Nat.max_0_l, Nat.max_0_r.
  f_equal. apply map_ext_in. intros x Hx.
  rewrite Forall_forall in IH. now apply IH.
Qed.

Lemma evaluate_strength_children (n : ProofNode.t) (l : list ProofNode.t) :
  Float64.py_sum (map ProofNode.evaluate_strength l) =
  Float64.py_sum (map ProofNode.evaluate_strength (ProofNode.children n)) ->
  ProofNode.evaluate_strength (with_children n l) =
  ProofNode.evaluate_strength n.
Proof.
  destruct n as [i c s pt ch cr]. cbn [with_children ProofNode.children].
  intros E. cbn [ProofNode.evaluate_strength]. now rewrite E.
Qed.

Lemma py_sum_swap (x y : Float64.float) :
  Float64.py_sum [x; y] = Float64.py_sum [y; x].
Proof.
  unfold Float64.py_sum. cbn [fold_left].
  destruct x as [[] | sx | | sx mx ex], y as [[] | sy | | sy my ey];
    try reflexivity;
    try (cbn [Float64.fadd Float64.f0_0 SFadd]; now destruct sx);
    try (cbn [Float64.fadd Float64.f0_0 SFadd]; now destruct sy).
  - cbn [Float64.fadd Float64.f0_0 SFadd]. now destruct sx, sy.
  - change (Float64.fadd Float64.f0_0 (S754_finite sx mx ex))
      with (S754_finite sx mx ex).
    change (Float64.fadd Float64.f0_0 (S754_finite sy my ey))
      with (S754_finite sy my ey).
    apply fadd_comm.
Qed.

Lemma Permutation_short {A} (l l' : list A) :
  (List.length l <= 2)%nat -> Permutation l l' ->
  l' = l \/ exists a b, l = [a; b] /\ l' = [b; a].
Proof.
  intros Hlen Hp.
  destruct l as [|a [|b [|c l]]]; simpl in Hlen; try lia.
  - apply Permutation_nil in Hp. now left.
  - apply Permutation_length_1_inv in Hp. now left.
  - apply Permutation_length_2_inv in Hp as [-> | ->];
      [now left | right; now exists a, b].
Qed.

(** With at most two children the order of the children does not change
    the strength: float addition is commutative. *)
Theorem evaluate_strength_two_children :
  forall (n : ProofNode.t) (l : list ProofNode.t),
    (List.length (ProofNode.children n) <= 2)%nat ->
    Permutation (ProofNode.children n) l ->
    ProofNode.evaluate_strength (with_children n l) =
    ProofNode.evaluate_strength n.
Proof.
  intros n l Hlen Hp. apply evaluate_strength_children.
  destruct (Permutation_short _ _ Hlen Hp) as [-> | (a & b & -> & ->)];
    [reflexivity|].
  cbn [map]. apply py_sum_swap.
Qed.

Lemma evaluate_strength_two_children_witness :
  let a := leaf $"observation" in
  let b := leaf $"tradition" in
  ProofNode.evaluate_strength (with_children (tree $"text" [a; b]) [b; a]) =
  ProofNode.evaluate_strength (tree $"text" [a; b]).
Proof.
  intros a b.
  apply (evaluate_strength_two_children (tree $"text" [a; b]) [b; a]).
  - simpl. lia.
  - apply perm_swap.
Defined.

(** With three children the order can matter when [sum] adds from left
    to right, as CPython does up to 3.11: for children of strengths 1.0,
    0.6 and 1.325 the sum taken in another order differs in its last bit,
    and the root rounds to 2.462 or to 2.463. *)
Lemma evaluate_strength_order_dependent :
  let a := leaf $"experiment" in
  let b := leaf $"text" in
  let c := tree $"experiment" [tree $"text" [leaf $"other"]] in
  let n := tree $"experiment" [a; b; c] in
  Permutation (ProofNode.children n) [a; c; b] /\
  ProofNode.evaluate_strength n = Float64.of_decimal 2462 3 /\
  ProofNode.evaluate_strength (with_children n [a; c; b]) =
    Float64.of_decimal 2463 3 /\
  ProofNode.evaluate_strength (with_children n [a; c; b]) <>
    ProofNode.evaluate_strength n.
Proof.
  intros a b c n. split; [|split; [|split]].
  - apply perm_skip, perm_swap.
  - vm_compute. reflexivity.
  - vm_compute. reflexivity.
  - vm_compute. discriminate.
Qed.

(** The same score when the sum is the left-to-right one. *)
Lemma evaluate_strength_with_py_sum (n : ProofNode.t) :
  evaluate_strength_with Float64.py_sum n = ProofNode.evaluate_strength n.
Proof.
  induction n as [i c s pt ch cr IH] using ProofNode_induction.
  cbn [evaluate_strength_with ProofNode.evaluate_strength].
  do 4 f_equal. apply map_ext_in. intros x Hx.
  rewrite Forall_forall in IH. now apply IH.
Qed.

Lemma three_orders {A} (a b c : A) (l : list A) :
  Permutation [a; b; c] l ->
  In l [[a; b; c]; [a; c; b]; [b; a; c]; [b; c; a]; [c; a; b]; [c; b; a]].
Proof.
  intros Hp.
  destruct (Permutation_vs_cons_inv (Permutation_sym Hp)) as (l1 & l2 & ->).
  apply Permutation_cons_app_inv in Hp.
  apply Permutation_length_2_inv in Hp.
  destruct l1 as [| x [| y [| z l1]]]; cbn [app] in Hp |- *;
    destruct Hp as [E | E]; inversion E; subst; cbn [app In]; tauto.
Qed.

(** With the compensated sum the tree of [evaluate_strength_order_dependent]
    scores 2.462 in every order of its three children: whether the order
    of the children can change the score depends on the [sum] that the
    interpreter provides. *)
Lemma compensated_sum_order_sample :
  let a := leaf $"experiment" in
  let b := leaf $"text" in
  let c := tree $"experiment" [tree $"text" [leaf $"other"]] in
  forall l, Permutation [a; b; c] l ->
    evaluate_strength_with py_sum_compensated (tree $"experiment" l) =
    Float64.of_decimal 2462 3.
Proof.
  intros a b c l Hp. apply three_orders in Hp. cbn [In] in Hp.
  repeat (destruct Hp as [<- | Hp]; [vm_compute; reflexivity|]).
  contradiction.
Qed.

(** * Rounding to binary64 *)









































(** * Further properties of the proof tree *)

Lemma add_child_children (n c : ProofNode.t) :
  ProofNode.children (ProofNode.add_child n c) = ProofNode.children n ++ [c].
Proof. destruct n. reflexivity. Qed.

Lemma add_child_fields (n c : ProofNode.t) :
  ProofNode.id (ProofNode.add_child n c) = ProofNode.id n /\
  ProofNode.claim (ProofNode.add_child n c) = ProofNode.claim n /\
  ProofNode.source (ProofNode.add_child n c) = ProofNode.source n /\
  ProofNode.proof_type (ProofNode.add_child n c) = ProofNode.proof_type n /\
  ProofNode.created (ProofNode.add_child n c) = ProofNode.created n.
Proof. destruct n. repeat split. Qed.

(** X1. Children appended to a node come after the children it had, in the
    order of the calls, and the node's own attributes stay; on a fresh node
    the children are exactly the appended ones. *)
Theorem add_child_sequence :
  forall (n : ProofNode.t) (l : list ProofNode.t),
    ProofNode.children (fold_left ProofNode.add_child l n)
      = ProofNode.children n ++ l /\
    ProofNode.id (fold_left ProofNode.add_child l n) = ProofNode.id n /\
    ProofNode.claim (fold_left ProofNode.add_child l n) = ProofNode.claim n /\
    ProofNode.source (fold_left ProofNode.add_child l n)
      = ProofNode.source n /\
    ProofNode.proof_type (fold_left ProofNode.add_child l n)
      = ProofNode.proof_type n /\
    ProofNode.created (fold_left ProofNode.add_child l n)
      = ProofNode.created n /\
    forall uuid now claim source proof_type,
      ProofNode.children
        (fold_left ProofNode.add_child l
           (ProofNode.init uuid now claim source proof_type)) = l.
Proof.
  intros n l.
  assert (G : forall n,
             ProofNode.children (fold_left ProofNode.add_child l n)
             = ProofNode.children n ++ l).
  { induction l as [|c l IH]; intros n0; simpl.
    - now rewrite app_nil_r.
    - rewrite IH, add_child_children, <- app_assoc. reflexivity. }
  split; [apply G|].
  assert (F : ProofNode.id (fold_left ProofNode.add_child l n)
              = ProofNode.id n /\
              ProofNode.claim (fold_left ProofNode.add_child l n)
              = ProofNode.claim n /\
              ProofNode.source (fold_left ProofNode.add_child l n)
              = ProofNode.source n /\
              ProofNode.proof_type (fold_left ProofNode.add_child l n)
              = ProofNode.proof_type n /\
              ProofNode.created (fold_left ProofNode.add_child l n)
              = ProofNode.created n).
  { clear G. revert n; induction l as [|c l IH]; intros n; simpl; [tauto|].
    destruct (IH (ProofNode.add_child n c)) as (A & B & C & D & E).
    destruct (add_child_fields n c) as (A' & B' & C' & D' & E').
    repeat split; congruence. }
  destruct F as (A & B & C & D & E).
  repeat (split; [assumption|]).
  intros uuid now claim source proof_type. now rewrite G.
Qed.

Lemma evaluate_strength_shape (n : ProofNode.t) :
  ProofNode.evaluate_strength n = shape_strength (skeleton n).
Proof.
  induction n as [i c s pt ch cr IH] using ProofNode_induction.
  cbn [ProofNode.evaluate_strength skeleton shape_strength].
  rewrite map_map. do 4 f_equal.
  apply map_ext_in. intros x Hx.
  rewrite Forall_forall in IH. now apply IH.
Qed.

(** X2. The strength depends on the proof types and the shape of the tree
    only: ids, claims, sources and creation times do not enter it. *)
Theorem evaluate_strength_ignores_labels :
  forall n n' : ProofNode.t,
    skeleton n = skeleton n' ->
    ProofNode.evaluate_strength n = ProofNode.evaluate_strength n'.
Proof.
  intros n n' H. now rewrite !evaluate_strength_shape, H.
Qed.

Lemma evaluate_strength_ignores_labels_witness :
  ProofNode.evaluate_strength
    (ProofNode.add_child
       (ProofNode.init $"1" $"t1" $"The Earth is round" $"textbook" $"text")
       (ProofNode.init $"2" $"t2" $"Curvature" $"nasa.gov" $"observation")) =
  ProofNode.evaluate_strength
    (ProofNode.add_child
       (ProofNode.init $"3" $"t3" $"Water is wet" $"anon" $"text")
       (ProofNode.init $"4" $"t4" $"It rains" $"diary" $"observation")).
Proof.
  apply evaluate_strength_ignores_labels. reflexivity.
Defined.

(** X3. A node without children scores exactly its weight in the table,
    whatever its other attributes: rounding to three places changes none
    of the six weights. *)
Theorem fresh_node_strength :
  forall uuid now claim source proof_type : PyStr.str,
    ProofNode.evaluate_strength
      (ProofNode.init uuid now claim source proof_type) =
    PyDict.get_default ProofNode.weight_map proof_type Float64.f0_1.
Proof.
  intros uuid now claim source pt. unfold ProofNode.init.
  cbn [ProofNode.evaluate_strength map].
  rewrite weight_map_get, fmul_one_weight.
  change (Float64.fmul (Float64.py_sum []) Float64.f0_5) with Float64.f0_0.
  rewrite fadd_weight_zero. apply py_round_weight.
Qed.

Lemma to_dict_injective_list (l l' : list ProofNode.t) :
  Forall (fun n => forall n', ProofNode.to_dict n = ProofNode.to_dict n' ->
                              n = n') l ->
  map ProofNode.to_dict l = map ProofNode.to_dict l' -> l = l'.
Proof.
  intros H. revert l'. induction H as [|x l Hx Hl IH]; intros [|y l'];
    simpl; try discriminate; [reflexivity|].
  intros [= E1 E2]. f_equal; [now apply Hx | now apply IH].
Qed.

(** X4. The view of a tree determines the tree: two nodes with equal views
    are equal, children included. *)
Theorem ProofNode_to_dict_injective :
  forall n n' : ProofNode.t,
    ProofNode.to_dict n = ProofNode.to_dict n' -> n = n'.
Proof.
  induction n as [i c s pt ch cr IH] using ProofNode_induction.
  intros [i' c' s' pt' ch' cr'].
  cbn [ProofNode.to_dict]. intros E.
  injection E as Ei Ec Es Ept Ecr _ Ech.
  apply (to_dict_injective_list _ _ IH) in Ech. congruence.
Qed.

Lemma ProofNode_to_dict_injective_witness :
  leaf $"text" = ProofNode.init $"id" $"now" $"claim" $"source" $"text".
Proof.
  apply ProofNode_to_dict_injective. reflexivity.
Defined.

(** * Further properties of the knowledge store *)

(** X5. The view of an entry has the six keys in order and determines the
    entry. *)
Theorem KnowledgeEntry_to_dict_lossless :
  forall e : KnowledgeEntry.t,
    match KnowledgeEntry.to_dict e with
    | VDict d => map fst d
    | _ => []
    end = [$"id"; $"timestamp"; $"content"; $"source"; $"tags";
           $"fingerprint"] /\
    forall e', KnowledgeEntry.to_dict e = KnowledgeEntry.to_dict e' -> e = e'.
Proof.
  intros [i t c s tg fp]. split; [reflexivity|].
  intros [i' t' c' s' tg' fp']. unfold KnowledgeEntry.to_dict.
  cbn [KnowledgeEntry.id KnowledgeEntry.timestamp KnowledgeEntry.content
       KnowledgeEntry.source KnowledgeEntry.tags KnowledgeEntry.fingerprint].
  intros E. injection E as Ei Et Ec Es Etg Efp.
  assert (tg = tg').
  { clear -Etg. revert tg' Etg. induction tg as [|x tg IH]; intros [|y tg'];
      simpl; try discriminate; [reflexivity|].
    intros [= -> E]. f_equal. now apply IH. }
  congruence.
Qed.

Lemma list_contains_keys {V} (d : PyDict.dict V) (k : PyStr.str) :
  list_contains (PyDict.keys d) k = PyDict.contains d k.
Proof.
  induction d as [|[k' v] d IH]; simpl; [reflexivity | now rewrite IH].
Qed.

Lemma contains_app {V} (d d' : PyDict.dict V) (k : PyStr.str) :
  PyDict.contains (d ++ d') k = PyDict.contains d k || PyDict.contains d' k.
Proof.
  induction d as [|[k' v] d IH]; simpl; [reflexivity|].
  now rewrite IH, orb_assoc.
Qed.

Lemma all_entries_add_entry (kb : KnowledgeBase.t) (e : KnowledgeEntry.t) :
  KnowledgeBase.all_entries (KnowledgeBase.add_entry kb e) =
  KnowledgeBase.all_entries kb ++
  (if PyDict.contains (KnowledgeBase.entries kb)
        (KnowledgeEntry.fingerprint e)
   then [] else [e]).
Proof.
  destruct (PyDict.contains (KnowledgeBase.entries kb)
              (KnowledgeEntry.fingerprint e)) eqn:H.
  - rewrite add_entry_present by assumption. now rewrite app_nil_r.
  - unfold KnowledgeBase.all_entries, PyDict.values.
    rewrite add_entry_absent by assumption. now rewrite map_app.
Qed.

Lemma add_entries_from (l : list KnowledgeEntry.t) :
  forall (kb : KnowledgeBase.t) (seen : list PyStr.str),
    (forall k, list_contains seen k
               = PyDict.contains (KnowledgeBase.entries kb) k) ->
    KnowledgeBase.all_entries (add_entries kb l) =
    KnowledgeBase.all_entries kb ++ first_occurrences seen l.
Proof.
  unfold add_entries.
  induction l as [|e l IH]; intros kb seen Hseen; simpl.
  - now rewrite app_nil_r.
  - rewrite Hseen.
    destruct (PyDict.contains (KnowledgeBase.entries kb)
                (KnowledgeEntry.fingerprint e)) eqn:H.
    + rewrite add_entry_present by assumption. now apply IH.
    + rewrite (IH _ (KnowledgeEntry.fingerprint e :: seen)).
      * rewrite all_entries_add_entry, H, <- app_assoc. reflexivity.
      * intros k. rewrite add_entry_absent by assumption.
        rewrite contains_app. simpl. rewrite Hseen.
        now rewrite orb_false_r, orb_comm.
Qed.

(** X6. Adding a list of entries one after the other keeps, after the
    entries already stored, exactly those whose fingerprint is not stored
    and not carried by an earlier entry of the list, in the order of the
    list; from the empty base, the first occurrence of each fingerprint. *)
Theorem add_entries_first_occurrences :
  forall (kb : KnowledgeBase.t) (l : list KnowledgeEntry.t),
    KnowledgeBase.all_entries (add_entries kb l) =
    KnowledgeBase.all_entries kb ++
    first_occurrences (PyDict.keys (KnowledgeBase.entries kb)) l
    /\ KnowledgeBase.all_entries (add_entries KnowledgeBase.init l) =
       first_occurrences [] l.
Proof.
  intros kb l. split.
  - apply add_entries_from. intros k. apply list_contains_keys.
  - now rewrite (add_entries_from l KnowledgeBase.init []).
Qed.

(** X7. After [add_entry], a search by tag returns what it returned before,
    followed by the new entry when its fingerprint was not stored and the
    tag is one of its tags.  An entry dropped as a duplicate is found by
    none of its tags and adds none to the stored entry. *)
Theorem search_by_tag_add_entry :
  forall (kb : KnowledgeBase.t) (e : KnowledgeEntry.t) (t : PyStr.str),
    KnowledgeBase.search_by_tag (KnowledgeBase.add_entry kb e) t =
    KnowledgeBase.search_by_tag kb t ++
    (if negb (PyDict.contains (KnowledgeBase.entries kb)
                (KnowledgeEntry.fingerprint e))
        && list_contains (KnowledgeEntry.tags e) t
     then [e] else []).
Proof.
  intros kb e t. rewrite !search_by_tag_filter, all_entries_add_entry.
  rewrite filter_app.
  destruct (PyDict.contains (KnowledgeBase.entries kb)
              (KnowledgeEntry.fingerprint e)); simpl; [reflexivity|].
  destruct (list_contains (KnowledgeEntry.tags e) t); reflexivity.
Qed.

Lemma keyed_add (kb : KnowledgeBase.t) (e : KnowledgeEntry.t) :
  keyed kb -> keyed (KnowledgeBase.add_entry kb e).
Proof.
  intros (Hnd & Hfp).
  destruct (PyDict.contains (KnowledgeBase.entries kb)
              (KnowledgeEntry.fingerprint e)) eqn:H.
  - rewrite add_entry_present by assumption. now split.
  - unfold keyed. rewrite add_entry_absent by assumption. split.
    + unfold PyDict.keys. rewrite map_app. simpl.
      apply NoDup_app; [assumption | repeat constructor; simpl; tauto |].
      intros k Hk [<- | []].
      apply contains_In_keys in Hk. congruence.
    + apply Forall_app. split; [assumption | now repeat constructor].
Qed.

Lemma keyed_add_entries (l : list KnowledgeEntry.t) (kb : KnowledgeBase.t) :
  keyed kb -> keyed (add_entries kb l).
Proof.
  unfold add_entries. revert kb.
  induction l as [|e l IH]; intros kb H; simpl; [assumption|].
  apply IH. now apply keyed_add.
Qed.

Lemma keyed_fingerprints (kb : KnowledgeBase.t) :
  keyed kb ->
  map KnowledgeEntry.fingerprint (KnowledgeBase.all_entries kb) =
  PyDict.keys (KnowledgeBase.entries kb).
Proof.
  intros [_ H]. unfold KnowledgeBase.all_entries, PyDict.values, PyDict.keys.
  rewrite map_map. apply map_ext_in. intros kv Hkv.
  rewrite Forall_forall in H. now apply H.
Qed.

Lemma matches_fingerprints (t : PyStr.str) (l : list KnowledgeEntry.t) :
  NoDup (map KnowledgeEntry.fingerprint l) ->
  NoDup (map KnowledgeEntry.fingerprint
           (flat_map (fun e => if list_contains (KnowledgeEntry.tags e) t
                               then [e] else []) l)).
Proof.
  induction l as [|e l IH]; intros H; cbn [flat_map map]; [constructor|].
  cbn [map] in H. apply NoDup_cons_iff in H as [Hfresh Hrest].
  specialize (IH Hrest).
  destruct (list_contains (KnowledgeEntry.tags e) t); cbn [app map];
    [|exact IH].
  apply NoDup_cons; [|exact IH].
  intros Hin. apply Hfresh.
  apply in_map_iff in Hin as (e' & Efp & He').
  apply in_flat_map in He' as (e'' & Hl & Hmatch).
  destruct (list_contains (KnowledgeEntry.tags e'') t);
    [|contradiction].
  destruct Hmatch as [<- | []].
  rewrite <- Efp. now apply in_map.
Qed.

(** X8. In a base filled by [add_entry] alone, no two stored entries have
    the same fingerprint, and a search by tag returns no fingerprint twice,
    however often the tag repeats among an entry's tags. *)
Theorem search_by_tag_no_duplicates :
  forall (l : list KnowledgeEntry.t) (t : PyStr.str),
    NoDup (map KnowledgeEntry.fingerprint
             (KnowledgeBase.all_entries (add_entries KnowledgeBase.init l)))
    /\ NoDup (map KnowledgeEntry.fingerprint
                (KnowledgeBase.search_by_tag
                   (add_entries KnowledgeBase.init l) t)).
Proof.
  intros l t.
  assert (K : keyed (add_entries KnowledgeBase.init l)).
  { apply keyed_add_entries. split; constructor. }
  assert (N : NoDup (map KnowledgeEntry.fingerprint
                       (KnowledgeBase.all_entries
                          (add_entries KnowledgeBase.init l)))).
  { rewrite keyed_fingerprints by assumption. apply K. }
  split; [exact N|].
  unfold KnowledgeBase.search_by_tag. apply matches_fingerprints.
  exact N.
Qed.

Lemma get_app {V} (d d' : PyDict.dict V) (k : PyStr.str) :
  PyDict.get (d ++ d') k =
  match PyDict.get d k with
  | Some v => Some v
  | None => PyDict.get d' k
  end.
Proof.
  induction d as [|[k' v] d IH]; simpl; [reflexivity|].
  destruct (PyStr.eqb k' k); [reflexivity | exact IH].
Qed.

Lemma entries_add_entry (kb : KnowledgeBase.t) (e : KnowledgeEntry.t) :
  KnowledgeBase.entries (KnowledgeBase.add_entry kb e) =
  KnowledgeBase.entries kb ++
  (if PyDict.contains (KnowledgeBase.entries kb)
        (KnowledgeEntry.fingerprint e)
   then [] else [(KnowledgeEntry.fingerprint e, e)]).
Proof.
  destruct (PyDict.contains (KnowledgeBase.entries kb)
              (KnowledgeEntry.fingerprint e)) eqn:H.
  - rewrite add_entry_present by assumption. now rewrite app_nil_r.
  - now apply add_entry_absent.
Qed.

(** X9. Two entries with different fingerprints can be added in either
    order: the base then maps every key to the same entry, and holds the
    same entries up to their order. *)
Theorem add_entry_commutes :
  forall (kb : KnowledgeBase.t) (e1 e2 : KnowledgeEntry.t),
    KnowledgeEntry.fingerprint e1 <> KnowledgeEntry.fingerprint e2 ->
    let kb12 := KnowledgeBase.add_entry (KnowledgeBase.add_entry kb e1) e2 in
    let kb21 := KnowledgeBase.add_entry (KnowledgeBase.add_entry kb e2) e1 in
    (forall k, PyDict.get (KnowledgeBase.entries kb12) k
               = PyDict.get (KnowledgeBase.entries kb21) k) /\
    Permutation (KnowledgeBase.all_entries kb12)
                (KnowledgeBase.all_entries kb21).
Proof.
  intros kb e1 e2 Hne kb12 kb21.
  assert (N12 : PyStr.eqb (KnowledgeEntry.fingerprint e1)
                          (KnowledgeEntry.fingerprint e2) = false)
    by now apply PyStr_eqb_neq.
  assert (N21 : PyStr.eqb (KnowledgeEntry.fingerprint e2)
                          (KnowledgeEntry.fingerprint e1) = false)
    by (apply PyStr_eqb_neq; congruence).
  assert (E12 : KnowledgeBase.entries kb12 =
                KnowledgeBase.entries kb ++
                (if PyDict.contains (KnowledgeBase.entries kb)
                      (KnowledgeEntry.fingerprint e1)
                 then [] else [(KnowledgeEntry.fingerprint e1, e1)]) ++
                (if PyDict.contains (KnowledgeBase.entries kb)
                      (KnowledgeEntry.fingerprint e2)
                 then [] else [(KnowledgeEntry.fingerprint e2, e2)])).
  { unfold kb12. rewrite entries_add_entry, entries_add_entry.
    rewrite contains_app, <- app_assoc. f_equal. f_equal.
    destruct (PyDict.contains (KnowledgeBase.entries kb)
                (KnowledgeEntry.fingerprint e1)); simpl;
      rewrite ?N12, ?orb_false_r; reflexivity. }
  assert (E21 : KnowledgeBase.entries kb21 =
                KnowledgeBase.entries kb ++
                (if PyDict.contains (KnowledgeBase.entries kb)
                      (KnowledgeEntry.fingerprint e2)
                 then [] else [(KnowledgeEntry.fingerprint e2, e2)]) ++
                (if PyDict.contains (KnowledgeBase.entries kb)
                      (KnowledgeEntry.fingerprint e1)
                 then [] else [(KnowledgeEntry.fingerprint e1, e1)])).
  { unfold kb21. rewrite entries_add_entry, entries_add_entry.
    rewrite contains_app, <- app_assoc. f_equal. f_equal.
    destruct (PyDict.contains (KnowledgeBase.entries kb)
                (KnowledgeEntry.fingerprint e2)); simpl;
      rewrite ?N21, ?orb_false_r; reflexivity. }
  split.
  - intros k. rewrite E12, E21, !get_app.
    destruct (PyDict.get (KnowledgeBase.entries kb) k); [reflexivity|].
    destruct (PyDict.contains (KnowledgeBase.entries kb)
                (KnowledgeEntry.fingerprint e1)),
             (PyDict.contains (KnowledgeBase.entries kb)
                (KnowledgeEntry.fingerprint e2)); simpl; try reflexivity.
    + destruct (PyStr.eqb (KnowledgeEntry.fingerprint e2) k); reflexivity.
    + destruct (PyStr.eqb (KnowledgeEntry.fingerprint e1) k); reflexivity.
    + destruct (PyStr.eqb (KnowledgeEntry.fingerprint e1) k) eqn:A,
               (PyStr.eqb (KnowledgeEntry.fingerprint e2) k) eqn:B;
        try reflexivity.
      apply PyStr_eqb_eq in A, B. congruence.
  - unfold KnowledgeBase.all_entries, PyDict.values.
    rewrite E12, E21, !map_app.
    apply Permutation_app_head, Permutation_app_comm.
Qed.

Lemma add_entry_commutes_witness :
  let e1 := KnowledgeEntry.mk $"1" $"t1" $"a" $"b" [$"x"] $"f1" in
  let e2 := KnowledgeEntry.mk $"2" $"t2" $"c" $"d" [$"y"] $"f2" in
  Permutation
    (KnowledgeBase.all_entries
       (KnowledgeBase.add_entry
          (KnowledgeBase.add_entry KnowledgeBase.init e1) e2))
    (KnowledgeBase.all_entries
       (KnowledgeBase.add_entry
          (KnowledgeBase.add_entry KnowledgeBase.init e2) e1)).
Proof.
  intros e1 e2.
  apply (add_entry_commutes KnowledgeBase.init e1 e2).
  simpl. discriminate.
Defined.

(** * Further properties of the strength *)











(** * Rounding is monotone *)























Lemma SFleb_refl_finite (m : positive) (e : Z) :
  SFleb (S754_finite false m e) (S754_finite false m e) = true.
Proof.
  unfold SFleb. cbn [SFcompare]. rewrite Z.compare_refl.
  change (Pos.compare_cont Eq m m) with (Pos.compare m m).
  now rewrite Pos.compare_refl.
Qed.











































(** [grown] holds what its name says: it is reflexive and transitive, one
    [add_child] grows a node, and growing a child grows its parent. *)
Lemma grown_refl (n : ProofNode.t) : grown n n.
Proof.
  induction n as [i c s pt ch cr IH] using ProofNode_induction.
  assert (H : Forall2 grown ch ch).
  { induction IH as [| x l Hx Hl IHl]; constructor; assumption. }
  pose proof (grown_node i c s pt ch cr ch [] H) as G.
  now rewrite app_nil_r in G.
Qed.

Lemma grown_add_child (n c : ProofNode.t) :
  grown n (ProofNode.add_child n c).
Proof.
  destruct n as [i cl s pt ch cr]. cbn [ProofNode.add_child].
  constructor. induction ch as [| x l IH]; constructor;
    [apply grown_refl | exact IH].
Qed.

Lemma grown_below (i c s pt cr : PyStr.str) (l1 l2 : list ProofNode.t)
      (x x' : ProofNode.t) :
  grown x x' ->
  grown (ProofNode.mk i c s pt (l1 ++ x :: l2) cr)
        (ProofNode.mk i c s pt (l1 ++ x' :: l2) cr).
Proof.
  intros G.
  assert (R : forall l, Forall2 grown l l)
    by (induction l; constructor; [apply grown_refl | assumption]).
  assert (H : Forall2 grown (l1 ++ x :: l2) (l1 ++ x' :: l2))
    by (apply Forall2_app; [apply R | constructor; [exact G | apply R]]).
  pose proof (grown_node i c s pt _ cr _ [] H) as G'.
  now rewrite app_nil_r in G'.
Qed.

Lemma grown_trans (a b c : ProofNode.t) :
  grown a b -> grown b c -> grown a c.
Proof.
  revert b c.
  induction a as [i cl s pt ch cr IH] using ProofNode_induction.
  intros b c G1 G2.
  inversion G1 as [? ? ? ? ? ? ch1 more1 H1]; subst.
  inversion G2 as [? ? ? ? ? ? ch2 more2 H2]; subst.
  apply Forall2_app_inv_l in H2 as (ch2a & ch2b & Ha & Hb & ->).
  rewrite <- app_assoc. constructor.
  clear G1 G2 Hb. revert ch2a Ha.
  induction H1 as [| x y l l' Hxy Hl IHl]; intros ch2a Ha;
    inversion Ha as [| ? z ? l'' Hyz Hl'']; subst; constructor.
  - exact (Forall_inv IH y z Hxy Hyz).
  - apply IHl; [exact (Forall_inv_tail IH) | exact Hl''].
Qed.





